(** * Preview.tsx: the TimeDisplay widget and its mode controller

    A shallow embedding of [src/components/Preview.tsx]: the [TimeState]
    cell of [TimeDisplay], its two effects (the hydration effect with the
    empty dependency array, the update effect over [mode] and
    [timeData.isHydrated]), the interval timer the update effect arms and
    clears, the render function, and the [renderMode] switch of
    [SuspensePreview].

    The host is modelled as far as the component uses it: the wall clock
    read by [new Date()], [Date.prototype.toISOString], the table of
    active interval timers behind [setInterval]/[clearInterval], and the
    rule by which React schedules and flushes passive effects. *)

From Stdlib Require Import ZArith Lia List Bool Ascii String.
From stdpp Require Import base option gmap.

Open Scope Z_scope.

(* ===================================================================== *)
(** ** The host's Date: time values and [toISOString]                     *)
(* ===================================================================== *)

(** Time values are milliseconds since the epoch, as ECMAScript has them
    (21.4.1).  The day and year arithmetic below follows the abstract
    operations of that section, under their names. *)
Module JSDate.

Definition msPerDay : Z := 86400000.
Definition msPerHour : Z := 3600000.
Definition msPerMinute : Z := 60000.
Definition msPerSecond : Z := 1000.

(** A Date holds a time value of at most 8.64e15 in magnitude; [new Date()]
    always yields one in that range. *)
Definition maxTime : Z := 8640000000000000.
Definition validTime (t : Z) : bool := (- maxTime <=? t) && (t <=? maxTime).

Definition Day (t : Z) : Z := t / msPerDay.
Definition TimeWithinDay (t : Z) : Z := t mod msPerDay.

Definition DayFromYear (y : Z) : Z :=
  365 * (y - 1970) + (y - 1969) / 4 - (y - 1901) / 100 + (y - 1601) / 400.

Definition InLeapYear (y : Z) : Z :=
  if negb (y mod 4 =? 0) then 0
  else if negb (y mod 100 =? 0) then 1
  else if negb (y mod 400 =? 0) then 0
  else 1.

Definition DaysInYear (y : Z) : Z := 365 + InLeapYear y.

(** The largest [y] with [DayFromYear y <= d]: the mean-year estimate is
    off by at most one, so it is adjusted by one comparison each way. *)
Definition YearFromDay (d : Z) : Z :=
  let y0 := 1970 + (400 * d) / 146097 in
  if DayFromYear (y0 + 1) <=? d then y0 + 1
  else if DayFromYear y0 <=? d then y0
  else y0 - 1.

Definition YearFromTime (t : Z) : Z := YearFromDay (Day t).

Definition DayWithinYear (t : Z) : Z := Day t - DayFromYear (YearFromTime t).

(** Days of the year before month [m] (0 = January), [leap] being 0 or 1. *)
Definition monthStart (m leap : Z) : Z :=
  if m <=? 0 then 0
  else if m =? 1 then 31
  else if m =? 2 then 59 + leap
  else if m =? 3 then 90 + leap
  else if m =? 4 then 120 + leap
  else if m =? 5 then 151 + leap
  else if m =? 6 then 181 + leap
  else if m =? 7 then 212 + leap
  else if m =? 8 then 243 + leap
  else if m =? 9 then 273 + leap
  else if m =? 10 then 304 + leap
  else if m =? 11 then 334 + leap
  else 365 + leap.

Definition monthOfDay (dwy leap : Z) : Z :=
  if dwy <? 31 then 0
  else if dwy <? 59 + leap then 1
  else if dwy <? 90 + leap then 2
  else if dwy <? 120 + leap then 3
  else if dwy <? 151 + leap then 4
  else if dwy <? 181 + leap then 5
  else if dwy <? 212 + leap then 6
  else if dwy <? 243 + leap then 7
  else if dwy <? 273 + leap then 8
  else if dwy <? 304 + leap then 9
  else if dwy <? 334 + leap then 10
  else 11.

Definition MonthFromTime (t : Z) : Z :=
  monthOfDay (DayWithinYear t) (InLeapYear (YearFromTime t)).

Definition DateFromTime (t : Z) : Z :=
  DayWithinYear t
  - monthStart (MonthFromTime t) (InLeapYear (YearFromTime t)) + 1.

Definition HourFromTime (t : Z) : Z := (t / msPerHour) mod 24.
Definition MinFromTime (t : Z) : Z := (t / msPerMinute) mod 60.
Definition SecFromTime (t : Z) : Z := (t / msPerSecond) mod 60.
Definition msFromTime (t : Z) : Z := t mod msPerSecond.

Definition MakeTime (h mi s ms : Z) : Z :=
  h * msPerHour + mi * msPerMinute + s * msPerSecond + ms.

(** [MakeDay] for a month already in 0..11. *)
Definition MakeDay (y m dt : Z) : Z :=
  DayFromYear y + monthStart m (InLeapYear y) + dt - 1.

Definition MakeDate (day time : Z) : Z := day * msPerDay + time.

Definition DaysInMonth (y m : Z) : Z :=
  monthStart (m + 1) (InLeapYear y) - monthStart m (InLeapYear y).

(** *** Decimal fields *)

Definition digitChar (d : Z) : ascii := ascii_of_N (Z.to_N (48 + d)).

Definition digitVal (c : ascii) : option Z :=
  let n := Z.of_N (N_of_ascii c) in
  if (48 <=? n) && (n <=? 57) then Some (n - 48) else None.

(** [pad k n]: the last [k] decimal digits of [n], zero-padded. *)
Fixpoint pad (k : nat) (n : Z) : string :=
  match k with
  | O => EmptyString
  | S k' => pad k' (n / 10) ++ String (digitChar (n mod 10)) EmptyString
  end.

(** [digits k s acc]: read exactly [k] decimal digits off the front of [s]. *)
Fixpoint digits (k : nat) (s : string) (acc : Z) : option (Z * string) :=
  match k with
  | O => Some (acc, s)
  | S k' =>
      match digits k' s acc with
      | Some (a, String c r) =>
          match digitVal c with
          | Some d => Some (10 * a + d, r)
          | None => None
          end
      | _ => None
      end
  end.

Definition lit (c : ascii) (s : string) : option string :=
  match s with
  | String c' r => if Ascii.eqb c c' then Some r else None
  | EmptyString => None
  end.

(** The year of the date-time string format: four digits for 0..9999,
    otherwise a sign and six digits. *)
Definition yearString (y : Z) : string :=
  if (0 <=? y) && (y <=? 9999) then pad 4 y
  else String (if y <? 0 then "-"%char else "+"%char) (pad 6 (Z.abs y)).

(** [Date.prototype.toISOString] on a valid time value:
    [YYYY-MM-DDTHH:mm:ss.sssZ], always in UTC. *)
Definition toISOString (t : Z) : string :=
  yearString (YearFromTime t) ++ "-" ++ pad 2 (MonthFromTime t + 1)
  ++ "-" ++ pad 2 (DateFromTime t)
  ++ "T" ++ pad 2 (HourFromTime t) ++ ":" ++ pad 2 (MinFromTime t)
  ++ ":" ++ pad 2 (SecFromTime t) ++ "." ++ pad 3 (msFromTime t) ++ "Z".

(** *** Reading a date-time string back *)

Definition parseYear (s : string) : option (Z * string) :=
  match s with
  | String c r =>
      if Ascii.eqb c "+" then digits 6 r 0
      else if Ascii.eqb c "-" then
        match digits 6 r 0 with
        | Some (y, r') => if y =? 0 then None else Some (- y, r')
        | None => None
        end
      else digits 4 s 0
  | EmptyString => None
  end.

(** The instant a string in the date-time format denotes: [None] unless
    the string has exactly the shape [toISOString] writes, with the month
    in 1..12, the day within the month, the hour below 24, minute and
    second below 60, and the instant within the range of a Date. *)
Definition parse (s : string) : option Z :=
  '(y, s) ← parseYear s;
  s ← lit "-" s;
  '(mo, s) ← digits 2 s 0;
  s ← lit "-" s;
  '(d, s) ← digits 2 s 0;
  s ← lit "T" s;
  '(h, s) ← digits 2 s 0;
  s ← lit ":" s;
  '(mi, s) ← digits 2 s 0;
  s ← lit ":" s;
  '(sec, s) ← digits 2 s 0;
  s ← lit "." s;
  '(ms, s) ← digits 3 s 0;
  s ← lit "Z" s;
  if negb (String.eqb s EmptyString) then None
  else if negb ((1 <=? mo) && (mo <=? 12)) then None
  else if negb ((1 <=? d) && (d <=? DaysInMonth y (mo - 1))) then None
  else if negb ((h <=? 23) && (mi <=? 59) && (sec <=? 59)) then None
  else
    let tv := MakeDate (MakeDay y (mo - 1) d) (MakeTime h mi sec ms) in
    if validTime tv then Some tv else None.

(** A valid ISO-8601 instant, as far as this program produces them. *)
Definition isISO8601 (s : string) : bool :=
  match parse s with Some _ => true | None => false end.

End JSDate.

Import JSDate.


(* ===================================================================== *)
(** ** The component: types, state and render                             *)
(* ===================================================================== *)

(** [interface RenderMode]: the prop [mode], ['client' | 'server']. *)
Inductive RenderMode := client | server.

Definition RenderMode_eqb (a b : RenderMode) : bool :=
  match a, b with
  | client, client | server, server => true
  | _, _ => false
  end.

(** [interface TimeState]. *)
Record TimeState := mkTimeState { timestamp : string; isHydrated : bool }.

(** The argument of [useState]: empty timestamp, not hydrated. *)
Definition initialTimeData : TimeState :=
  {| timestamp := ""; isHydrated := false |}.

(** What [setTimeData] is called with: a value or an updater function. *)
Inductive SetStateAction :=
| Value (s : TimeState)
| Updater (f : TimeState -> TimeState).

Definition applyAction (a : SetStateAction) (prev : TimeState) : TimeState :=
  match a with
  | Value s => s
  | Updater f => f prev
  end.

(** The body of the hydration effect, [new Date()] reading [t]. *)
Definition hydrationEffect (t : Z) : SetStateAction :=
  Value {| timestamp := toISOString t; isHydrated := true |}.

(** The interval callback: [prev => ({...prev, timestamp: ...})]. *)
Definition intervalCallback (t : Z) : SetStateAction :=
  Updater (fun prev =>
    {| timestamp := toISOString t; isHydrated := isHydrated prev |}).

(** The markup [TimeDisplay] returns, by its mode-dependent parts. *)
Record MainView := mkMainView {
  indicator : string;        (* classes of the round indicator *)
  label : string;            (* the text beside it *)
  shown : string;            (* the timestamp paragraph *)
  message : string;          (* the mode-specific message *)
  debug : option string      (* "Hydrated: ..." in development builds *)
}.

Inductive View :=
| LoadingDisplay
| Main (v : MainView).

(** JavaScript's [!s] on a string: true exactly on the empty string. *)
Definition falsy (s : string) : bool :=
  match s with EmptyString => true | String _ _ => false end.

(** The classes of the two indicators: the active client one, green and
    pulsing, and the static server one. *)
Definition liveIndicator : string := "bg-green-500 animate-pulse".
Definition staticIndicator : string := "bg-blue-500".

(** What [TimeDisplay] returns for prop [mode] and state [timeData]: the
    loading placeholder until there is a timestamp, then the main view.
    [dev] is [process.env.NODE_ENV === 'development']. *)
Definition render (dev : bool) (mode : RenderMode) (timeData : TimeState)
  : View :=
  if falsy (timestamp timeData) then LoadingDisplay
  else Main
    {| indicator :=
         if RenderMode_eqb mode client && isHydrated timeData
         then liveIndicator
         else staticIndicator;
       label :=
         if RenderMode_eqb mode client then "Client Rendered"
         else "Server Rendered";
       shown := timestamp timeData;
       message :=
         if RenderMode_eqb mode client then "Live updating with Suspense"
         else "Static server render with Suspense";
       debug :=
         if dev then Some (if isHydrated timeData then "Yes" else "No")%string
         else None |}.

(* ===================================================================== *)
(** ** The mounted component and its host                                 *)
(* ===================================================================== *)

(** The mounted [TimeDisplay]: its state cell, the prop of the committed
    render, the cleanup the update effect returned on its last run (the
    interval it closes over), and which effects the last commit scheduled
    and React has not run yet.  [hydrationRuns] counts the executions of
    the hydration effect's body; nothing reads it. *)
Record Fiber := mkFiber {
  timeData : TimeState;
  mode : RenderMode;
  cleanup : option nat;
  pendingHydration : bool;
  pendingUpdate : bool;
  hydrationRuns : nat
}.

(** What the host sees of the component. *)
Inductive Obs :=
| Rendered (v : View)
| Console (msg : string)
| SetInterval (id : nat) (delay : Z)
| ClearInterval (id : nat).

(** The host: the wall clock, the build mode, the component when it is
    mounted, the active interval timers with the time each is next due,
    the next timer id, and the log of what happened, newest first. *)
Record World := mkWorld {
  now : Z;
  development : bool;
  fiber : option Fiber;
  timers : gmap nat Z;
  nextTimer : nat;
  trace : list Obs
}.

Definition initWorld (dev : bool) (t0 : Z) : World :=
  {| now := t0; development := dev; fiber := None;
     timers := ∅; nextTimer := 0%nat; trace := [] |}.

Definition withFiber (w : World) (f : option Fiber) : World :=
  {| now := now w; development := development w; fiber := f;
     timers := timers w; nextTimer := nextTimer w; trace := trace w |}.

Definition logged (w : World) (o : Obs) : World :=
  {| now := now w; development := development w; fiber := fiber w;
     timers := timers w; nextTimer := nextTimer w; trace := o :: trace w |}.

(** The delay [TimeDisplay] passes to [setInterval]. *)
Definition intervalDelay : Z := 1000.

(** [setInterval(callback, delay)]: a fresh id, first due [delay] from now. *)
Definition setInterval (w : World) (delay : Z) : World * nat :=
  let id := nextTimer w in
  ({| now := now w; development := development w; fiber := fiber w;
      timers := <[id := now w + delay]> (timers w);
      nextTimer := S id;
      trace := SetInterval id delay :: trace w |}, id).

(** [clearInterval(id)]. *)
Definition clearInterval (w : World) (id : nat) : World :=
  {| now := now w; development := development w; fiber := fiber w;
     timers := delete id (timers w);
     nextTimer := nextTimer w;
     trace := ClearInterval id :: trace w |}.

(** The body of the update effect, closed over the [mode] and [timeData]
    of the render that created it; the result is the world and the
    interval its cleanup will clear, if it returned a cleanup. *)
Definition updateEffect (w : World) (mode : RenderMode) (timeData : TimeState)
  : World * option nat :=
  if RenderMode_eqb mode client && isHydrated timeData then
    let w1 := logged w (Console "Setting up client-side time updates") in
    let '(w2, interval) := setInterval w1 intervalDelay in
    (w2, Some interval)
  else (w, None).

(** The cleanup the update effect returned. *)
Definition runCleanup (w : World) (c : option nat) : World :=
  match c with
  | Some interval =>
      clearInterval (logged w (Console "Cleaning up client-side updates"))
        interval
  | None => w
  end.

(** [Object.is] on the dependency array [[mode, timeData.isHydrated]]. *)
Definition depsChanged (old new : RenderMode * bool) : bool :=
  negb (RenderMode_eqb (fst old) (fst new))
  || negb (Bool.eqb (snd old) (snd new)).

(** React renders [f] with prop [mode'] and state [timeData'] and commits:
    the output goes to the screen, and the update effect is scheduled when
    its dependencies differ from those of the previous render.  The
    hydration effect has no dependencies and is never scheduled here. *)
Definition commitRender (w : World) (f : Fiber) (mode' : RenderMode)
  (timeData' : TimeState) : World :=
  let changed :=
    depsChanged (mode f, isHydrated (timeData f))
      (mode', isHydrated timeData') in
  logged
    (withFiber w (Some
       {| timeData := timeData'; mode := mode'; cleanup := cleanup f;
          pendingHydration := pendingHydration f;
          pendingUpdate := pendingUpdate f || changed;
          hydrationRuns := hydrationRuns f |}))
    (Rendered (render (development w) mode' timeData')).

(** The first render of a mount: initial state, both effects scheduled. *)
Definition mountRender (w : World) (mode : RenderMode) : World :=
  logged
    (withFiber w (Some
       {| timeData := initialTimeData; mode := mode; cleanup := None;
          pendingHydration := true; pendingUpdate := true;
          hydrationRuns := 0%nat |}))
    (Rendered (render (development w) mode initialTimeData)).

(** One round of React's passive effects: first the cleanups of the
    effects about to re-run, then the effect bodies in hook order
    (hydration effect, update effect), each closed over the committed
    render; a state update queued by an effect then re-renders. *)
Definition flushPassiveEffects (w : World) : World :=
  match fiber w with
  | None => w
  | Some f =>
      let w1 := if pendingUpdate f then runCleanup w (cleanup f) else w in
      let queued :=
        if pendingHydration f then Some (hydrationEffect (now w1)) else None in
      let '(w2, c) :=
        if pendingUpdate f then updateEffect w1 (mode f) (timeData f)
        else (w1, cleanup f) in
      let f' :=
        {| timeData := timeData f; mode := mode f; cleanup := c;
           pendingHydration := false; pendingUpdate := false;
           hydrationRuns :=
             if pendingHydration f then S (hydrationRuns f)
             else hydrationRuns f |} in
      match queued with
      | Some a => commitRender w2 f' (mode f) (applyAction a (timeData f))
      | None => withFiber w2 (Some f')
      end
  end.

(** React flushes pending passive effects before it renders again, and
    the effects of the re-render an effect caused with them: two rounds
    leave nothing pending (lemma [settle_settled]). *)
Definition settle (w : World) : World :=
  flushPassiveEffects (flushPassiveEffects w).

(** [SuspensePreview]: the initial [renderMode], and the argument its
    Switch's [onCheckedChange] passes to [setRenderMode]. *)
Definition initialRenderMode : RenderMode := server.

Definition onCheckedChange (checked : bool) : RenderMode :=
  if checked then client else server.

(** What can happen to the widget. *)
Inductive Event :=
| Mount (mode : RenderMode)      (* TimeDisplay mounts under this prop *)
| Flush                          (* React runs the pending passive effects *)
| CheckedChange (checked : bool) (* the user flips the Switch *)
| Timer (id : nat)               (* the host runs the callback of a timer *)
| Clock (t : Z)                  (* the wall clock comes to read [t] *)
| Unmount.                       (* TimeDisplay is torn down *)

(** One event; [None] when it cannot happen in [w]: a second mount, a
    toggle or teardown of an unmounted widget, the callback of a timer
    that is not active or not yet due, a clock reading no Date can hold.

    A flip of the Switch is a discrete event: React renders the new mode
    and flushes the effects of that render before the click's task ends,
    so the whole of it is one step; so is a teardown with its cleanups.
    A timer callback re-arms its interval and queues the updater, which
    React applies in the render that follows. *)
Definition step (w : World) (ev : Event) : option World :=
  match ev with
  | Mount m =>
      match fiber w with
      | None => Some (mountRender w m)
      | Some _ => None
      end
  | Flush => Some (flushPassiveEffects w)
  | CheckedChange checked =>
      match fiber w with
      | None => None
      | Some f =>
          let m := onCheckedChange checked in
          if RenderMode_eqb m (mode f) then Some w   (* same state: no render *)
          else
            let w1 := settle w in
            match fiber w1 with
            | None => None
            | Some f1 => Some (settle (commitRender w1 f1 m (timeData f1)))
            end
      end
  | Timer id =>
      match timers w !! id with
      | None => None
      | Some due =>
          if due <=? now w then
            let w1 :=
              {| now := now w; development := development w;
                 fiber := fiber w;
                 timers := <[id := now w + intervalDelay]> (timers w);
                 nextTimer := nextTimer w; trace := trace w |} in
            let w2 := settle w1 in
            match fiber w2 with
            | None => Some w2     (* setState on an unmounted component *)
            | Some f =>
                Some (commitRender w2 f (mode f)
                        (applyAction (intervalCallback (now w2)) (timeData f)))
            end
          else None
      end
  | Clock t =>
      if validTime t then
        Some {| now := t; development := development w; fiber := fiber w;
                timers := timers w; nextTimer := nextTimer w;
                trace := trace w |}
      else None
  | Unmount =>
      match fiber w with
      | None => None
      | Some f => Some (withFiber (runCleanup w (cleanup f)) None)
      end
  end.

(** A run of events, left to right. *)
Fixpoint run (w : World) (evs : list Event) : option World :=
  match evs with
  | [] => Some w
  | ev :: evs' =>
      match step w ev with
      | Some w' => run w' evs'
      | None => None
      end
  end.

(** The worlds an execution can be in. *)
Inductive reachable : World -> Prop :=
| reach_init dev t0 : validTime t0 = true -> reachable (initWorld dev t0)
| reach_step w ev w' : reachable w -> step w ev = Some w' -> reachable w'.

(* ===================================================================== *)
(** ** Observations on worlds and runs                                    *)
(* ===================================================================== *)

(** The timestamp on screen: the component's, once it is hydrated. *)
Definition shownStamp (w : World) : option string :=
  match fiber w with
  | Some f =>
      if isHydrated (timeData f) then Some (timestamp (timeData f)) else None
  | None => None
  end.


Definition isTimer (ev : Event) : bool :=
  match ev with Timer _ => true | _ => false end.

(** Events that put the widget in client mode. *)
Definition selectsClient (ev : Event) : bool :=
  match ev with
  | Mount client | CheckedChange true => true
  | _ => false
  end.

(** Events other than a switch to client mode and a new mount. *)
Definition keepsMode (ev : Event) : bool :=
  match ev with
  | Mount _ | CheckedChange true => false
  | _ => true
  end.

Definition notUnmount (ev : Event) : bool :=
  match ev with Unmount => false | _ => true end.

(** No component, or a component in server mode. *)
Definition quiet (w : World) : bool :=
  match fiber w with
  | None => true
  | Some f => RenderMode_eqb (mode f) server
  end.

(** The component, while there is one, is in server mode with state [td]. *)
Definition frozen (td : TimeState) (w : World) : Prop :=
  match fiber w with
  | None => True
  | Some f => mode f = server /\ timeData f = td
  end.






(** The shapes a world can have: no component; mounted, effects pending;
    hydrated, the update effect pending again; settled in server mode;
    settled in client mode with its one interval timer. *)
Inductive Inv : World -> Prop :=
| Inv_unmounted t dev nt tr :
    validTime t = true ->
    Inv (mkWorld t dev None ∅ nt tr)
| Inv_mounted t dev m nt tr :
    validTime t = true ->
    Inv (mkWorld t dev
           (Some (mkFiber initialTimeData m None true true 0%nat)) ∅ nt tr)
| Inv_hydrated t dev t1 m nt tr :
    validTime t = true -> validTime t1 = true ->
    Inv (mkWorld t dev
           (Some (mkFiber (mkTimeState (toISOString t1) true) m None
                    false true 1%nat)) ∅ nt tr)
| Inv_static t dev t1 nt tr :
    validTime t = true -> validTime t1 = true ->
    Inv (mkWorld t dev
           (Some (mkFiber (mkTimeState (toISOString t1) true) server None
                    false false 1%nat)) ∅ nt tr)
| Inv_live t dev t1 id due nt tr :
    validTime t = true -> validTime t1 = true -> (id < nt)%nat ->
    Inv (mkWorld t dev
           (Some (mkFiber (mkTimeState (toISOString t1) true) client (Some id)
                    false false 1%nat)) {[ id := due ]} nt tr).

(** Two runs from the epoch, used to instantiate the theorems below. *)
Definition after (evs : list Event) : World :=
  default (initWorld false 0) (run (initWorld false 0) evs).

Definition armedEvents : list Event := [Mount client; Flush; Flush].
Definition liveEvents : list Event := armedEvents ++ [Clock 1050].
Definition staticEvents : list Event :=
  [Mount initialRenderMode; Flush; Flush; Clock 1050].

Definition epochState : TimeState :=
  {| timestamp := "1970-01-01T00:00:00.000Z"; isHydrated := true |}.
Definition liveFiber : Fiber :=
  {| timeData := epochState; mode := client; cleanup := Some 0%nat;
     pendingHydration := false; pendingUpdate := false;
     hydrationRuns := 1%nat |}.
Definition staticFiber : Fiber :=
  {| timeData := epochState; mode := server; cleanup := None;
     pendingHydration := false; pendingUpdate := false;
     hydrationRuns := 1%nat |}.

(* ===================================================================== *)
(** ** Observations on the log                                            *)
(* ===================================================================== *)

(** What is on screen: the output of the newest render in the log. *)
Fixpoint screen (tr : list Obs) : option View :=
  match tr with
  | [] => None
  | Rendered v :: _ => Some v
  | _ :: tr' => screen tr'
  end.

(** The main views a log holds. *)
Fixpoint mainViews (tr : list Obs) : list MainView :=
  match tr with
  | [] => []
  | Rendered (Main v) :: tr' => v :: mainViews tr'
  | _ :: tr' => mainViews tr'
  end.

Definition isSetInterval (o : Obs) : bool :=
  match o with SetInterval _ _ => true | _ => false end.

Definition isClearInterval (o : Obs) : bool :=
  match o with ClearInterval _ => true | _ => false end.

Definition isConsole (msg : string) (o : Obs) : bool :=
  match o with Console m => String.eqb m msg | _ => false end.

(** How many entries of the log satisfy [p]. *)
Definition logged_count (p : Obs -> bool) (tr : list Obs) : nat :=
  length (List.filter p tr).

(** The two messages the update effect logs. *)
Definition settingUp : string := "Setting up client-side time updates".
Definition cleaningUp : string := "Cleaning up client-side updates".

(** The interval that is open at the end of a log, reading it oldest
    entry first: [None] if the log sets an interval while one is open,
    or clears one that is not the open one. *)
Fixpoint openInterval (tr : list Obs) : option (option nat) :=
  match tr with
  | [] => Some None
  | o :: tr' =>
      match openInterval tr' with
      | None => None
      | Some st =>
          match o, st with
          | SetInterval id _, None => Some (Some id)
          | SetInterval _ _, Some _ => None
          | ClearInterval id, Some id' =>
              if Nat.eqb id id' then Some None else None
          | ClearInterval _, None => None
          | _, _ => Some st
          end
      end
  end.

(** The interval the component holds: the one its cleanup will clear. *)
Definition heldInterval (w : World) : option nat :=
  match fiber w with
  | Some f => cleanup f
  | None => None
  end.

(** Every [setInterval] in the log is either cleared or still active, and
    each call is logged with its message. *)
Definition balanced (w : World) : Prop :=
  logged_count isSetInterval (trace w)
  = (logged_count isClearInterval (trace w) + size (timers w))%nat /\
  logged_count (isConsole settingUp) (trace w)
  = logged_count isSetInterval (trace w) /\
  logged_count (isConsole cleaningUp) (trace w)
  = logged_count isClearInterval (trace w).

(** The screen shows the component as it is. *)
Definition inSync (w : World) : Prop :=
  forall f, fiber w = Some f ->
    screen (trace w) = Some (render (development w) (mode f) (timeData f)).

(** A main view as a hydrated component renders it: the debug line, when
    there is one, says Yes, indicator and label name the same mode, and
    the timestamp is a date-time string. *)
Definition coherent (v : MainView) : Prop :=
  (debug v = None \/ debug v = Some "Yes"%string) /\
  (indicator v = liveIndicator /\ label v = "Client Rendered"%string \/
   indicator v = staticIndicator /\ label v = "Server Rendered"%string) /\
  isISO8601 (shown v) = true.

(** Nothing has put the widget in client mode, and no interval was set. *)
Definition noIntervalSet (w : World) : Prop :=
  quiet w = true /\ logged_count isSetInterval (trace w) = 0%nat.

(* ===================================================================== *)
(** ** The page: [SuspensePreview]                                        *)
(* ===================================================================== *)

(** What [SuspensePreview] returns, by its mode-dependent parts: the
    "Render Mode" line, the position of the Switch, the [TimeDisplay]
    inside the Suspense boundary (it never suspends, so the fallback is
    not shown), and which explanation the implementation tab holds. *)
Record PreviewView := mkPreviewView {
  renderModeLine : string;
  switchChecked : bool;
  timeDisplay : View;
  howItWorks : string
}.

Definition SuspensePreview_render (renderMode : RenderMode) (child : View)
  : PreviewView :=
  {| renderModeLine :=
       "Render Mode: "
       ++ (if RenderMode_eqb renderMode client then "Client-side"
           else "Server-side");
     switchChecked := RenderMode_eqb renderMode client;
     timeDisplay := child;
     howItWorks :=
       if RenderMode_eqb renderMode client
       then "Client-Side Rendering Process"
       else "Server-Side Rendering Process" |}.

(** The page: the [renderMode] cell of [SuspensePreview] and the host
    with the [TimeDisplay] it renders. *)
Record Page := mkPage { renderMode : RenderMode; host : World }.

(** The page mounts: [renderMode] starts as ['server'], and [TimeDisplay]
    mounts under it. *)
Definition openPage (dev : bool) (t0 : Z) : Page :=
  {| renderMode := initialRenderMode;
     host := mountRender (initWorld dev t0) initialRenderMode |}.

(** What can happen to the page: the user clicks the Switch, React runs
    the pending effects, the host runs a timer callback, the clock comes
    to a new reading. *)
Inductive PageEvent :=
| Click
| Effects
| Tick (id : nat)
| Reading (t : Z).

(** A click on a controlled switch calls [onCheckedChange] with the
    opposite of its [checked] prop. *)
Definition hostEvent (p : Page) (ev : PageEvent) : Event :=
  match ev with
  | Click => CheckedChange (negb (RenderMode_eqb (renderMode p) client))
  | Effects => Flush
  | Tick id => Timer id
  | Reading t => Clock t
  end.

Definition pageStep (p : Page) (ev : PageEvent) : option Page :=
  match step (host p) (hostEvent p ev) with
  | Some w =>
      Some {| renderMode :=
                match ev with
                | Click =>
                    onCheckedChange
                      (negb (RenderMode_eqb (renderMode p) client))
                | _ => renderMode p
                end;
              host := w |}
  | None => None
  end.

Fixpoint pageRun (p : Page) (evs : list PageEvent) : option Page :=
  match evs with
  | [] => Some p
  | ev :: evs' =>
      match pageStep p ev with
      | Some p' => pageRun p' evs'
      | None => None
      end
  end.

Inductive reachablePage : Page -> Prop :=
| page_open dev t0 : validTime t0 = true -> reachablePage (openPage dev t0)
| page_step p ev p' :
    reachablePage p -> pageStep p ev = Some p' -> reachablePage p'.

(** The page as it is on screen. *)
Definition pageView (p : Page) : option PreviewView :=
  match screen (trace (host p)) with
  | Some v => Some (SuspensePreview_render (renderMode p) v)
  | None => None
  end.

(** The page's [TimeDisplay] is mounted under the page's [renderMode]. *)
Definition PageInv (p : Page) : Prop :=
  reachable (host p) /\
  exists f, fiber (host p) = Some f /\ mode f = renderMode p.

(** A page run from the epoch, to instantiate the theorems below. *)
Definition pageAfter (evs : list PageEvent) : Page :=
  default (openPage false 0) (pageRun (openPage false 0) evs).

Definition livePageEvents : list PageEvent :=
  [Effects; Effects; Reading 500; Click; Reading 1500; Tick 0%nat].

(* ===================================================================== *)
(** ** Proof automation                                                   *)
(* ===================================================================== *)

(** Unfold one step down to the record it builds. *)
Ltac unfold_step :=
  cbv beta iota zeta delta
    [step run flushPassiveEffects settle commitRender mountRender withFiber
     logged updateEffect runCleanup setInterval clearInterval depsChanged
     RenderMode_eqb onCheckedChange applyAction hydrationEffect intervalCallback
     intervalDelay initialTimeData
     now development fiber timers nextTimer trace
     timeData mode cleanup pendingHydration pendingUpdate hydrationRuns
     timestamp isHydrated fst snd andb orb negb Bool.eqb] in *.

Ltac timer_case Hs :=
  match type of Hs with
  | context [∅ !! _] => rewrite lookup_empty in Hs
  | context [{[ ?j := _ ]} !! ?i] =>
      destruct (decide (i = j)) as [->|];
      [rewrite lookup_singleton_eq in Hs
      |rewrite lookup_singleton_ne in Hs by congruence]
  end.

Ltac inv_cases HI :=
  destruct HI as [?t ?dev ?nt ?tr ?Ht
                 |?t ?dev ?m ?nt ?tr ?Ht
                 |?t ?dev ?t1 ?m ?nt ?tr ?Ht ?Ht1
                 |?t ?dev ?t1 ?nt ?tr ?Ht ?Ht1
                 |?t ?dev ?t1 ?id ?due ?nt ?tr ?Ht ?Ht1 ?Hid].

(** Case analysis of one step from a world of known shape: [Hs] is the
    step's equation; what is left are the worlds the step can produce. *)
Ltac step_cases HI Hs :=
  inv_cases HI;
  try match goal with m : RenderMode |- _ => destruct m end;
  match type of Hs with
  | step _ ?ev = _ =>
      tryif is_var ev then destruct ev as [[|]| |[|]|?id'|?t'|] else idtac
  end;
  unfold_step;
  try discriminate Hs;
  try timer_case Hs;
  try discriminate Hs;
  repeat match type of Hs with
  | (if ?c then _ else _) = _ =>
      let E := fresh "E" in destruct c eqn:E; [|discriminate Hs]
  end;
  try (injection Hs as <-);
  repeat first
    [ rewrite insert_empty | rewrite insert_singleton_eq
    | rewrite delete_singleton_eq | rewrite delete_empty ].

Ltac month_table :=
  unfold monthStart;
  repeat match goal with
  | |- context [Z.add (Zpos ?p) 1] =>
      let v := eval vm_compute in (Zpos p + 1) in change (Zpos p + 1) with v
  | |- context [Z.add 0 1] => change (0 + 1) with 1
  end;
  cbn.


(** One click on the page's Switch, computed. *)
Ltac page_click :=
  eexists; split;
  [unfold pageStep, hostEvent; cbn [renderMode host]; unfold_step;
   reflexivity
  |cbn [renderMode host]].

(* ===================================================================== *)
(** ** Facts about Date                                                   *)
(* ===================================================================== *)

Example iso_epoch : toISOString 0 = "1970-01-01T00:00:00.000Z"%string.
Proof. vm_compute. reflexivity. Qed.
Example iso_leap_day :
  toISOString 1709209845123 = "2024-02-29T12:30:45.123Z"%string.
Proof. vm_compute. reflexivity. Qed.
Example iso_before_epoch :
  toISOString (-1) = "1969-12-31T23:59:59.999Z"%string.
Proof. vm_compute. reflexivity. Qed.
Example iso_latest :
  toISOString maxTime = "+275760-09-13T00:00:00.000Z"%string.
Proof. vm_compute. reflexivity. Qed.
Example iso_earliest :
  toISOString (- maxTime) = "-271821-04-20T00:00:00.000Z"%string.
Proof. vm_compute. reflexivity. Qed.
Example iso_year_zero :
  toISOString (-62167219200000) = "0000-01-01T00:00:00.000Z"%string.
Proof. vm_compute. reflexivity. Qed.
Example iso_year_minus_one :
  toISOString (-62167219200001) = "-000001-12-31T23:59:59.999Z"%string.
Proof. vm_compute. reflexivity. Qed.
Example parse_leap_day :
  parse "2024-02-29T12:30:45.123Z" = Some 1709209845123.
Proof. vm_compute. reflexivity. Qed.
Example parse_no_such_day : parse "2023-02-29T12:30:45.123Z" = None.
Proof. vm_compute. reflexivity. Qed.
Example parse_not_a_date : parse "Sat Nov 02 2024" = None.
Proof. vm_compute. reflexivity. Qed.
Example leap_years :
  map InLeapYear [1900; 2000; 2023; 2024] = [0; 1; 0; 1].
Proof. reflexivity. Qed.

Lemma DayFromYear_step y : DayFromYear (y + 1) = DayFromYear y + DaysInYear y.
Proof.
  unfold DayFromYear, DaysInYear, InLeapYear.
  destruct (Z.eqb_spec (y mod 4) 0); cbn [negb];
  destruct (Z.eqb_spec (y mod 100) 0); cbn [negb];
  destruct (Z.eqb_spec (y mod 400) 0); cbn [negb];
  Z.div_mod_to_equations; lia.
Qed.

(** [YearFromDay d] is the year day [d] falls in. *)
Lemma YearFromDay_spec d :
  DayFromYear (YearFromDay d) <= d < DayFromYear (YearFromDay d + 1).
Proof.
  unfold YearFromDay.
  set (y0 := 1970 + 400 * d / 146097).
  destruct (Z.leb_spec (DayFromYear (y0 + 1)) d) as [H1|H1].
  - split; [exact H1|].
    unfold DayFromYear in *. subst y0. Z.div_mod_to_equations. lia.
  - destruct (Z.leb_spec (DayFromYear y0) d) as [H2|H2].
    + split; [exact H2|]. exact H1.
    + replace (y0 - 1 + 1) with y0 by lia. split; [|exact H2].
      unfold DayFromYear in *. subst y0. Z.div_mod_to_equations. lia.
Qed.

Lemma InLeapYear_01 y : InLeapYear y = 0 \/ InLeapYear y = 1.
Proof.
  unfold InLeapYear.
  repeat match goal with
  | |- context [negb ?b] => destruct b; cbn [negb]
  end; auto.
Qed.

Lemma DayWithinYear_bounds t :
  0 <= DayWithinYear t < 365 + InLeapYear (YearFromTime t).
Proof.
  unfold DayWithinYear, YearFromTime.
  pose proof (YearFromDay_spec (Day t)) as H.
  rewrite DayFromYear_step in H. unfold DaysInYear in H. lia.
Qed.

Lemma monthOfDay_spec dwy leap :
  0 <= dwy < 365 + leap -> 0 <= leap <= 1 ->
  0 <= monthOfDay dwy leap <= 11 /\
  monthStart (monthOfDay dwy leap) leap <= dwy
    < monthStart (monthOfDay dwy leap + 1) leap.
Proof.
  intros Hd Hl. unfold monthOfDay.
  repeat match goal with
  | |- context [if ?a <? ?b then _ else _] =>
      destruct (Z.ltb_spec a b); [month_table; lia|]
  end.
  month_table; lia.
Qed.

Lemma MonthFromTime_bounds t : 0 <= MonthFromTime t <= 11.
Proof.
  unfold MonthFromTime.
  pose proof (DayWithinYear_bounds t).
  pose proof (InLeapYear_01 (YearFromTime t)).
  apply monthOfDay_spec; lia.
Qed.

Lemma DaysInMonth_le_31 y m : 0 <= m <= 11 -> DaysInMonth y m <= 31.
Proof.
  intros Hm. unfold DaysInMonth.
  assert (m = 0 \/ m = 1 \/ m = 2 \/ m = 3 \/ m = 4 \/ m = 5 \/ m = 6
          \/ m = 7 \/ m = 8 \/ m = 9 \/ m = 10 \/ m = 11) as Hc by lia.
  destruct (InLeapYear_01 y) as [-> | ->];
    repeat destruct Hc as [-> | Hc]; try subst m; vm_compute; discriminate.
Qed.

Lemma DateFromTime_bounds t :
  1 <= DateFromTime t <= DaysInMonth (YearFromTime t) (MonthFromTime t).
Proof.
  unfold DateFromTime, DaysInMonth, MonthFromTime.
  pose proof (DayWithinYear_bounds t).
  pose proof (InLeapYear_01 (YearFromTime t)).
  pose proof (monthOfDay_spec (DayWithinYear t) (InLeapYear (YearFromTime t))).
  lia.
Qed.

Lemma digitVal_digitChar d : 0 <= d <= 9 -> digitVal (digitChar d) = Some d.
Proof.
  intros H.
  assert (d = 0 \/ d = 1 \/ d = 2 \/ d = 3 \/ d = 4 \/ d = 5 \/ d = 6
          \/ d = 7 \/ d = 8 \/ d = 9) as Hd by lia.
  repeat destruct Hd as [-> | Hd]; try subst d; reflexivity.
Qed.

Lemma digitChar_not_sign d c :
  0 <= d <= 9 -> c = "+"%char \/ c = "-"%char ->
  Ascii.eqb (digitChar d) c = false.
Proof.
  intros H Hc.
  assert (d = 0 \/ d = 1 \/ d = 2 \/ d = 3 \/ d = 4 \/ d = 5 \/ d = 6
          \/ d = 7 \/ d = 8 \/ d = 9) as Hd by lia.
  destruct Hc as [-> | ->];
    repeat destruct Hd as [-> | Hd]; try subst d; reflexivity.
Qed.

Lemma append_cons c (a b : string) :
  (String c a ++ b = String c (a ++ b))%string.
Proof. reflexivity. Qed.

Lemma append_nil (b : string) : ("" ++ b = b)%string.
Proof. reflexivity. Qed.

Lemma append_assoc (a b c : string) :
  ((a ++ b) ++ c = a ++ (b ++ c))%string.
Proof.
  induction a as [|x a IH]; [reflexivity|].
  change (String x ((a ++ b) ++ c) = String x (a ++ (b ++ c)))%string.
  now rewrite IH.
Qed.

(** Reading back the [k] digits [pad] wrote. *)
Lemma digits_pad k : forall n rest acc,
  0 <= n < 10 ^ Z.of_nat k ->
  digits k (pad k n ++ rest) acc = Some (acc * 10 ^ Z.of_nat k + n, rest).
Proof.
  induction k as [|k IH]; intros n rest acc Hn.
  - cbn. f_equal. f_equal. change (10 ^ Z.of_nat 0) with 1 in *. lia.
  - rewrite Nat2Z.inj_succ, Z.pow_succ_r in * by lia.
    cbn [pad digits]. rewrite append_assoc, append_cons, append_nil.
    rewrite IH by (Z.div_mod_to_equations; lia).
    rewrite digitVal_digitChar by (Z.div_mod_to_equations; lia).
    f_equal. f_equal. Z.div_mod_to_equations; lia.
Qed.

Lemma parseYear_yearString y rest :
  -999999 <= y <= 999999 ->
  parseYear (yearString y ++ rest) = Some (y, rest).
Proof.
  intros Hy. unfold yearString.
  destruct (Z.leb_spec 0 y) as [H0|H0]; cbn [andb].
  - destruct (Z.leb_spec y 9999) as [H1|H1].
    + pose proof (digits_pad 4 y rest 0) as Hd.
      change (10 ^ Z.of_nat 4) with 10000 in Hd.
      specialize (Hd ltac:(lia)).
      revert Hd. cbn [pad]. rewrite !append_assoc, !append_cons, !append_nil.
      intros Hd. unfold parseYear.
      rewrite !digitChar_not_sign by
        (first [Z.div_mod_to_equations; lia | auto]).
      rewrite Hd. f_equal.
    + destruct (Z.ltb_spec y 0); [lia|].
      rewrite append_cons. cbn [parseYear Ascii.eqb Bool.eqb andb].
      pose proof (digits_pad 6 (Z.abs y) rest 0) as Hd.
      change (10 ^ Z.of_nat 6) with 1000000 in Hd.
      rewrite Hd by lia. f_equal. f_equal. lia.
  - destruct (Z.ltb_spec y 0); [|lia].
    rewrite append_cons. cbn [parseYear Ascii.eqb Bool.eqb andb].
    pose proof (digits_pad 6 (Z.abs y) rest 0) as Hd.
    change (10 ^ Z.of_nat 6) with 1000000 in Hd.
    rewrite Hd by lia.
    destruct (Z.eqb_spec (0 * 1000000 + Z.abs y) 0); [lia|].
    f_equal. f_equal. lia.
Qed.

Lemma validTime_bounds t :
  validTime t = true -> - maxTime <= t <= maxTime.
Proof. unfold validTime. intros H. apply andb_true_iff in H. lia. Qed.

Lemma YearFromTime_bounds t :
  validTime t = true -> -999999 <= YearFromTime t <= 999999.
Proof.
  intros H%validTime_bounds. unfold YearFromTime.
  pose proof (YearFromDay_spec (Day t)) as Hs.
  unfold DayFromYear, Day, maxTime, msPerDay in *.
  Z.div_mod_to_equations. lia.
Qed.

Lemma MakeDay_fields t :
  MakeDay (YearFromTime t) (MonthFromTime t) (DateFromTime t) = Day t.
Proof. unfold MakeDay, DateFromTime, DayWithinYear. lia. Qed.

Lemma MakeTime_fields t :
  MakeTime (HourFromTime t) (MinFromTime t) (SecFromTime t) (msFromTime t)
  = TimeWithinDay t.
Proof.
  unfold MakeTime, HourFromTime, MinFromTime, SecFromTime, msFromTime,
    TimeWithinDay, msPerHour, msPerMinute, msPerSecond, msPerDay.
  Z.div_mod_to_equations. lia.
Qed.

Lemma MakeDate_fields t : MakeDate (Day t) (TimeWithinDay t) = t.
Proof.
  unfold MakeDate, Day, TimeWithinDay, msPerDay.
  Z.div_mod_to_equations. lia.
Qed.

Lemma lit_cons c s : lit c (String c s) = Some s.
Proof. unfold lit. now rewrite Ascii.eqb_refl. Qed.

(** Every string [toISOString] writes for a valid time value reads back
    as that time value. *)
Theorem parse_toISOString t :
  validTime t = true -> parse (toISOString t) = Some t.
Proof.
  intros Hv. unfold parse, toISOString.
  pose proof (YearFromTime_bounds t Hv) as Hy.
  pose proof (MonthFromTime_bounds t) as Hm.
  pose proof (DateFromTime_bounds t) as Hd.
  pose proof (DaysInMonth_le_31 (YearFromTime t) _ Hm) as Hdm.
  assert (0 <= HourFromTime t < 24) by (apply Z.mod_pos_bound; lia).
  assert (0 <= MinFromTime t < 60) by (apply Z.mod_pos_bound; lia).
  assert (0 <= SecFromTime t < 60) by (apply Z.mod_pos_bound; lia).
  assert (0 <= msFromTime t < 1000)
    by (apply Z.mod_pos_bound; unfold msPerSecond; lia).
  rewrite parseYear_yearString by lia. cbn [mbind option_bind].
  rewrite append_cons, append_nil, lit_cons. cbn [mbind option_bind].
  rewrite (digits_pad 2) by (change (10 ^ Z.of_nat 2) with 100; lia).
  cbn [mbind option_bind].
  rewrite append_cons, append_nil, lit_cons. cbn [mbind option_bind].
  rewrite (digits_pad 2) by (change (10 ^ Z.of_nat 2) with 100; lia).
  cbn [mbind option_bind].
  rewrite append_cons, append_nil, lit_cons. cbn [mbind option_bind].
  rewrite (digits_pad 2) by (change (10 ^ Z.of_nat 2) with 100; lia).
  cbn [mbind option_bind].
  rewrite append_cons, append_nil, lit_cons. cbn [mbind option_bind].
  rewrite (digits_pad 2) by (change (10 ^ Z.of_nat 2) with 100; lia).
  cbn [mbind option_bind].
  rewrite append_cons, append_nil, lit_cons. cbn [mbind option_bind].
  rewrite (digits_pad 2) by (change (10 ^ Z.of_nat 2) with 100; lia).
  cbn [mbind option_bind].
  rewrite append_cons, append_nil, lit_cons. cbn [mbind option_bind].
  rewrite (digits_pad 3) by (change (10 ^ Z.of_nat 3) with 1000; lia).
  cbn [mbind option_bind].
  rewrite lit_cons. cbn [mbind option_bind String.eqb negb].
  change (10 ^ Z.of_nat 2) with 100. change (10 ^ Z.of_nat 3) with 1000.
  rewrite !Z.mul_0_l, !Z.add_0_l.
  replace (MonthFromTime t + 1 - 1) with (MonthFromTime t) by lia.
  repeat match goal with
  | |- context [?a <=? ?b] =>
      lazymatch goal with
      | |- context [if negb _ then _ else _] =>
          destruct (Z.leb_spec a b); [|lia]
      end
  end.
  cbn [andb negb].
  rewrite MakeDay_fields, MakeTime_fields, MakeDate_fields, Hv. reflexivity.
Qed.

Lemma isISO8601_toISOString t :
  validTime t = true -> isISO8601 (toISOString t) = true.
Proof. intros H. unfold isISO8601. now rewrite parse_toISOString. Qed.

Lemma falsy_toISOString t : falsy (toISOString t) = false.
Proof.
  unfold toISOString.
  generalize (yearString (YearFromTime t)). intros s.
  rewrite append_cons. destruct s; reflexivity.
Qed.

Lemma toISOString_nonempty t : toISOString t <> ""%string.
Proof.
  intros H. pose proof (falsy_toISOString t) as F. rewrite H in F. discriminate.
Qed.

(* ===================================================================== *)
(** ** The invariant of the component                                     *)
(* ===================================================================== *)

Example run_live :
  fiber (after liveEvents) = Some liveFiber /\
  timers (after liveEvents) = {[ 0%nat := 1000 ]}.
Proof. vm_compute. split; reflexivity. Qed.

Example run_static :
  fiber (after staticEvents) = Some staticFiber /\
  timers (after staticEvents) = ∅.
Proof. vm_compute. split; reflexivity. Qed.

(** A callback cannot run before its timer is due, nor after the timer
    was cleared. *)
Example run_too_early :
  run (initWorld false 0) [Mount client; Flush; Flush; Clock 999; Timer 0%nat]
  = None.
Proof. vm_compute. reflexivity. Qed.

Example run_after_clear :
  run (after liveEvents) [CheckedChange false; Clock 5000; Timer 0%nat] = None.
Proof. vm_compute. reflexivity. Qed.

Lemma run_app w a b :
  run w (a ++ b) = match run w a with Some w1 => run w1 b | None => None end.
Proof.
  revert w. induction a as [|ev a IH]; intros w; cbn; [reflexivity|].
  destruct (step w ev); [apply IH | reflexivity].
Qed.

Lemma Inv_step w ev w' : Inv w -> step w ev = Some w' -> Inv w'.
Proof.
  intros HI Hs. step_cases HI Hs; constructor; auto; lia.
Qed.

Lemma Inv_reachable w : reachable w -> Inv w.
Proof.
  induction 1 as [dev t0 H|w ev w' _ IH Hs].
  - now constructor.
  - eapply Inv_step; eauto.
Qed.

Lemma reachable_run w evs w' :
  reachable w -> run w evs = Some w' -> reachable w'.
Proof.
  revert w. induction evs as [|ev evs IH]; intros w Hr H; cbn in H.
  - now injection H as <-.
  - destruct (step w ev) as [w1|] eqn:Hs; [|discriminate].
    eapply IH; [|exact H]. econstructor; eauto.
Qed.

(** Two rounds of effects leave none pending, whatever the world. *)
Lemma settle_settled w f :
  fiber (settle w) = Some f ->
  pendingHydration f = false /\ pendingUpdate f = false.
Proof.
  destruct w as [t dev [[[ts hy] m c ph pu n]|] tm nt tr]; [|discriminate].
  destruct hy, m, c, ph, pu; unfold_step; intros [= <-]; split; reflexivity.
Qed.

(** A run from the epoch that succeeds ends in a reachable world. *)
Lemma reachable_after evs :
  is_Some (run (initWorld false 0) evs) -> reachable (after evs).
Proof.
  intros [w Hr]. unfold after. rewrite Hr. cbn.
  apply (reachable_run (initWorld false 0) evs); [|exact Hr].
  now apply reach_init.
Qed.

Lemma step_Timer_lookup w id w' :
  step w (Timer id) = Some w' ->
  exists due, timers w !! id = Some due /\ due <= now w.
Proof.
  cbn. destruct (timers w !! id) as [due|]; [|discriminate].
  destruct (Z.leb_spec due (now w)); [|discriminate]. eauto.
Qed.

(** An active timer belongs to a hydrated component in client mode. *)
Lemma timer_needs_live w id due :
  Inv w -> timers w !! id = Some due ->
  exists f, fiber w = Some f /\ isHydrated (timeData f) = true /\
            hydrationRuns f = 1%nat /\ cleanup f = Some id /\ mode f = client.
Proof.
  intros HI Hl. inv_cases HI; cbn in Hl.
  1-4: now rewrite lookup_empty in Hl.
  apply lookup_singleton_Some in Hl as [<- _].
  eexists; repeat split.
Qed.




(** A timer that is gone, with an id already handed out, never returns. *)
Lemma dead_timer_step w ev w' id :
  Inv w -> timers w !! id = None -> (id < nextTimer w)%nat ->
  step w ev = Some w' ->
  timers w' !! id = None /\ (id < nextTimer w')%nat.
Proof.
  intros HI Hd Hn Hs. step_cases HI Hs; cbn in *.
  all: try (split; [|lia]).
  all: try apply lookup_empty.
  all: try (apply lookup_singleton_ne; lia).
  all: try (apply lookup_singleton_None in Hd; now apply lookup_singleton_ne).
Qed.

Lemma dead_timer_run w evs w' id :
  Inv w -> timers w !! id = None -> (id < nextTimer w)%nat ->
  run w evs = Some w' -> ~ In (Timer id) evs.
Proof.
  revert w. induction evs as [|ev evs IH]; intros w HI Hd Hn Hr; [easy|].
  cbn [run] in Hr. destruct (step w ev) as [w1|] eqn:Hs; [|discriminate].
  intros [->|Hin].
  - apply step_Timer_lookup in Hs as (due & Hl & _). congruence.
  - destruct (dead_timer_step _ _ _ _ HI Hd Hn Hs) as [Hd1 Hn1].
    exact (IH w1 (Inv_step _ _ _ HI Hs) Hd1 Hn1 Hr Hin).
Qed.

(** Without a switch to client mode no callback can run. *)
Lemma quiet_step w ev w' :
  Inv w -> quiet w = true -> selectsClient ev = false ->
  step w ev = Some w' ->
  quiet w' = true /\ isTimer ev = false.
Proof.
  intros HI Hq Hc Hs. step_cases HI Hs; cbn in *; try discriminate; auto.
Qed.

Lemma quiet_run w evs w' :
  Inv w -> quiet w = true -> existsb selectsClient evs = false ->
  run w evs = Some w' -> existsb isTimer evs = false.
Proof.
  revert w. induction evs as [|ev evs IH]; intros w HI Hq Hc Hr; [easy|].
  cbn [run existsb] in *.
  destruct (step w ev) as [w1|] eqn:Hs; [|discriminate].
  apply orb_false_iff in Hc as [Hc1 Hc2].
  destruct (quiet_step _ _ _ HI Hq Hc1 Hs) as [Hq1 ->]. cbn.
  exact (IH w1 (Inv_step _ _ _ HI Hs) Hq1 Hc2 Hr).
Qed.

Lemma frozen_step td w ev w' :
  Inv w -> isHydrated td = true -> frozen td w -> keepsMode ev = true ->
  step w ev = Some w' -> frozen td w'.
Proof.
  intros HI Hh Hf Hk Hs. unfold frozen in *.
  step_cases HI Hs; cbn in *; try discriminate; auto.
  all: try (destruct Hf as [Hm Htd]; try discriminate Hm;
            rewrite <- Htd in Hh; discriminate Hh).
Qed.

Lemma hydrated_step w ev w' f :
  fiber w = Some f -> isHydrated (timeData f) = true ->
  notUnmount ev = true -> step w ev = Some w' ->
  exists f', fiber w' = Some f' /\ isHydrated (timeData f') = true.
Proof.
  intros Hf Hh Hn Hs.
  destruct w as [t dev fo tm nt tr]. cbn in Hf. subst fo.
  destruct f as [[ts hy] m c ph pu n]. cbn in Hh. subst hy.
  destruct ev as [[|]| |[|]|id'|t'|]; try discriminate Hn;
    destruct m, c as [id|], ph, pu; unfold_step; try discriminate Hs.
  all: repeat match type of Hs with
       | match ?x with _ => _ end = _ => destruct x eqn:?; try discriminate Hs
       end.
  all: injection Hs as <-; eexists; split; reflexivity.
Qed.






(* ===================================================================== *)
(** ** The properties of the widget                                       *)
(* ===================================================================== *)

(** C1: in every reachable state of the widget (after the mount, after the
    hydration effect, after any timer callbacks and toggles) the timestamp
    is the empty string if and only if [isHydrated] is false. *)
Theorem timestamp_empty_iff_not_hydrated w f :
  reachable w -> fiber w = Some f ->
  timestamp (timeData f) = ""%string <-> isHydrated (timeData f) = false.
Proof.
  intros HI%Inv_reachable Hf.
  inv_cases HI; cbn in Hf; try discriminate; injection Hf as <-; cbn.
  all: split; intros H; try reflexivity; try discriminate.
  all: now apply toISOString_nonempty in H.
Qed.

Lemma timestamp_empty_iff_not_hydrated_witness :
  reachable (after liveEvents) /\
  fiber (after liveEvents) = Some liveFiber /\
  (timestamp (timeData liveFiber) = ""%string
   <-> isHydrated (timeData liveFiber) = false).
Proof.
  assert (reachable (after liveEvents)) as R
    by (apply reachable_after; vm_compute; eauto).
  split; [exact R|]. split; [vm_compute; reflexivity|].
  apply (timestamp_empty_iff_not_hydrated (after liveEvents) liveFiber R).
  vm_compute; reflexivity.
Defined.

(** C2: in every reachable state of a mounted widget the hydration effect
    has run either not yet or exactly once.  While it is pending the state
    is the initial one and the next flush of effects runs it, setting the
    timestamp to the current time and [isHydrated] to true; once it has
    run, the count stays at one, [isHydrated] is true and the timestamp is
    a valid ISO-8601 string. *)
Theorem hydration_exactly_once w f :
  reachable w -> fiber w = Some f ->
  (pendingHydration f = true /\ hydrationRuns f = 0%nat /\
   isHydrated (timeData f) = false /\
   exists w' f',
     step w Flush = Some w' /\ fiber w' = Some f' /\
     pendingHydration f' = false /\ hydrationRuns f' = 1%nat /\
     timeData f' = {| timestamp := toISOString (now w); isHydrated := true |} /\
     isISO8601 (timestamp (timeData f')) = true)
  \/
  (pendingHydration f = false /\ hydrationRuns f = 1%nat /\
   isHydrated (timeData f) = true /\
   isISO8601 (timestamp (timeData f)) = true).
Proof.
  intros HI%Inv_reachable Hf.
  inv_cases HI; cbn in Hf; try discriminate; injection Hf as <-.
  - left. repeat (split; [reflexivity|]).
    destruct m; eexists _, _; unfold_step;
      (split; [reflexivity|]); cbn;
      repeat (split; [reflexivity|]); now apply isISO8601_toISOString.
  - right. cbn. repeat (split; [reflexivity|]). now apply isISO8601_toISOString.
  - right. cbn. repeat (split; [reflexivity|]). now apply isISO8601_toISOString.
  - right. cbn. repeat (split; [reflexivity|]). now apply isISO8601_toISOString.
Qed.

Lemma hydration_exactly_once_witness :
  reachable (after liveEvents) /\
  fiber (after liveEvents) = Some liveFiber /\
  hydrationRuns liveFiber = 1%nat /\
  isISO8601 (timestamp (timeData liveFiber)) = true.
Proof.
  assert (reachable (after liveEvents)) as R
    by (apply reachable_after; vm_compute; eauto).
  assert (fiber (after liveEvents) = Some liveFiber) as F
    by (vm_compute; reflexivity).
  split; [exact R|]. split; [exact F|].
  destruct (hydration_exactly_once (after liveEvents) liveFiber R F)
    as [(Hp & _)|(_ & Hr & _ & Hi)].
  - discriminate Hp.
  - split; [exact Hr | exact Hi].
Defined.

(** C3: in every execution the hydration effect has run before any timer
    callback fires: when a callback runs, the run so far has left the
    component hydrated.  An active timer only exists beside a hydrated
    component, and the update effect arms one only when the render it
    closes over was hydrated. *)
Theorem hydration_before_any_callback :
  (forall dev t0 pre id post w,
     validTime t0 = true ->
     run (initWorld dev t0) (pre ++ Timer id :: post) = Some w ->
     exists w1 f,
       run (initWorld dev t0) pre = Some w1 /\ fiber w1 = Some f /\
       isHydrated (timeData f) = true /\ hydrationRuns f = 1%nat /\
       pendingHydration f = false)
  /\
  (forall w id due,
     reachable w -> timers w !! id = Some due ->
     exists f, fiber w = Some f /\ isHydrated (timeData f) = true)
  /\
  (forall w m td w' id,
     updateEffect w m td = (w', Some id) -> isHydrated td = true).
Proof.
  split; [|split].
  - intros dev t0 pre id post w Hv Hr. rewrite run_app in Hr.
    destruct (run (initWorld dev t0) pre) as [w1|] eqn:Hpre; [|discriminate].
    cbn [run] in Hr.
    destruct (step w1 (Timer id)) as [w2|] eqn:Hs; [|discriminate].
    apply step_Timer_lookup in Hs as (due & Hl & _).
    assert (Inv w1) as HI.
    { apply Inv_reachable.
      eapply reachable_run; [|exact Hpre]. now constructor. }
    exists w1. inv_cases HI; cbn in Hl.
    1-4: now rewrite lookup_empty in Hl.
    eexists; repeat split.
  - intros w id due HI%Inv_reachable Hl.
    destruct (timer_needs_live _ _ _ HI Hl) as (f & ? & ? & _). eauto.
  - intros w m td w' id. unfold updateEffect.
    destruct m, (isHydrated td); cbn; congruence.
Qed.

Lemma hydration_before_any_callback_witness :
  exists w1 f,
    run (initWorld false 0) liveEvents = Some w1 /\ fiber w1 = Some f /\
    isHydrated (timeData f) = true /\ hydrationRuns f = 1%nat /\
    pendingHydration f = false.
Proof.
  apply (proj1 hydration_before_any_callback false 0 liveEvents 0%nat
           [Unmount] (after (liveEvents ++ [Timer 0%nat; Unmount]))).
  - reflexivity.
  - vm_compute; reflexivity.
Defined.

(** C4: when the widget is torn down, or the switch is turned to server
    mode, the step itself clears the active timer: afterwards no timer is
    active and the log ends with the [clearInterval] of the one that was.
    In every continuation the callback of a cleared timer never runs
    again, and no callback runs at all unless the widget is put in client
    mode again. *)
Theorem timer_cancelled_for_good w ev w' :
  reachable w -> ev = Unmount \/ ev = CheckedChange false ->
  step w ev = Some w' ->
  timers w' = ∅ /\
  (forall id, is_Some (timers w !! id) ->
     exists rest, trace w' = ClearInterval id :: rest) /\
  forall evs w'',
    run w' evs = Some w'' ->
    (forall id, is_Some (timers w !! id) -> ~ In (Timer id) evs) /\
    (existsb selectsClient evs = false -> existsb isTimer evs = false).
Proof.
  intros HI%Inv_reachable Hev Hs.
  pose proof (Inv_step _ _ _ HI Hs) as HI'.
  assert (timers w' = ∅ /\ quiet w' = true /\
          (forall id, is_Some (timers w !! id) ->
             (id < nextTimer w')%nat /\
             exists rest, trace w' = ClearInterval id :: rest))
    as (HT & HQ & HD).
  { step_cases HI Hs; destruct Hev as [Hev|Hev]; try discriminate Hev; cbn.
    all: (split; [reflexivity|]); (split; [reflexivity|]); intros id0 [x Hx].
    all: try (now rewrite lookup_empty in Hx).
    all: apply lookup_singleton_Some in Hx as [<- _]; eauto. }
  split; [exact HT|]. split; [intros id Hid; now apply HD|].
  intros evs w'' Hr. split.
  - intros id Hid. destruct (HD id Hid) as [Hlt _].
    eapply dead_timer_run; eauto. rewrite HT. apply lookup_empty.
  - intros Hc. eapply quiet_run; eauto.
Qed.

Lemma timer_cancelled_for_good_witness :
  reachable (after liveEvents) /\
  step (after liveEvents) Unmount = Some (after (liveEvents ++ [Unmount])) /\
  timers (after (liveEvents ++ [Unmount])) = ∅ /\
  (is_Some (timers (after liveEvents) !! 0%nat) ->
   ~ In (Timer 0%nat) [Clock 3000; Mount client; Flush; Flush; Clock 4200;
                        Timer 1%nat]).
Proof.
  assert (reachable (after liveEvents)) as R
    by (apply reachable_after; vm_compute; eauto).
  assert (step (after liveEvents) Unmount
          = Some (after (liveEvents ++ [Unmount]))) as S
    by (vm_compute; reflexivity).
  destruct (timer_cancelled_for_good (after liveEvents) Unmount _ R
              (or_introl eq_refl) S) as (HT & _ & HR).
  split; [exact R|]. split; [exact S|]. split; [exact HT|].
  intros Hid.
  refine (proj1 (HR _ (after (liveEvents ++ [Unmount; Clock 3000; Mount client;
                                              Flush; Flush; Clock 4200;
                                              Timer 1%nat])) _) 0%nat Hid).
  vm_compute; reflexivity.
Defined.

(** C5: once the widget is hydrated and in server mode, its state, the
    timestamp with it, is unchanged after any continuation that has no
    switch to client mode and no new mount, for as long as the component
    exists: flushes of the effects, clock readings and repeated switches
    to server mode do not alter it, and no timer callback can run. *)
Theorem static_timestamp_frozen w f evs w' f' :
  reachable w -> fiber w = Some f ->
  mode f = server -> isHydrated (timeData f) = true ->
  forallb keepsMode evs = true ->
  run w evs = Some w' -> fiber w' = Some f' ->
  timeData f' = timeData f.
Proof.
  intros HI%Inv_reachable Hf Hm Hh Hk Hr Hf'.
  assert (frozen (timeData f) w) as Hfr by (unfold frozen; now rewrite Hf).
  clear Hf Hm. revert w HI Hfr Hr.
  induction evs as [|ev evs IH]; intros w HI Hfr Hr; cbn [run forallb] in *.
  - injection Hr as <-. unfold frozen in Hfr. rewrite Hf' in Hfr.
    now destruct Hfr.
  - destruct (step w ev) as [w1|] eqn:Hs; [|discriminate].
    apply andb_true_iff in Hk as [Hk1 Hk2].
    exact (IH Hk2 w1 (Inv_step _ _ _ HI Hs)
             (frozen_step _ _ _ _ HI Hh Hfr Hk1 Hs) Hr).
Qed.

Lemma static_timestamp_frozen_witness :
  reachable (after staticEvents) /\
  fiber (after staticEvents) = Some staticFiber /\
  run (after staticEvents) [Clock 5000; Flush; CheckedChange false; Clock 9000]
  = Some (after (staticEvents
                   ++ [Clock 5000; Flush; CheckedChange false; Clock 9000])) /\
  fiber (after (staticEvents
                  ++ [Clock 5000; Flush; CheckedChange false; Clock 9000]))
  = Some staticFiber /\
  timeData staticFiber = timeData staticFiber.
Proof.
  assert (reachable (after staticEvents)) as R
    by (apply reachable_after; vm_compute; eauto).
  split; [exact R|]. split; [vm_compute; reflexivity|].
  split; [vm_compute; reflexivity|]. split; [vm_compute; reflexivity|].
  apply (static_timestamp_frozen (after staticEvents) staticFiber
           [Clock 5000; Flush; CheckedChange false; Clock 9000]
           (after (staticEvents
                     ++ [Clock 5000; Flush; CheckedChange false; Clock 9000]))
           staticFiber R); vm_compute; reflexivity.
Defined.






(** C7: for a hydrated state that satisfies the data model's invariant,
    the widget renders the main view with the state's timestamp; the
    indicator and label are the static ones exactly in server mode and the
    live ones exactly in client mode, and the two indicators differ. *)
Theorem view_follows_mode dev m td :
  isHydrated td = true ->
  (timestamp td = ""%string <-> isHydrated td = false) ->
  exists v,
    render dev m td = Main v /\ shown v = timestamp td /\
    (m = server <->
       indicator v = staticIndicator /\ label v = "Server Rendered"%string) /\
    (m = client <->
       indicator v = liveIndicator /\ label v = "Client Rendered"%string) /\
    staticIndicator <> liveIndicator.
Proof.
  intros Hh Hinv. unfold render.
  destruct (timestamp td) as [|c s] eqn:Hts.
  - destruct Hinv as [Hinv _]. rewrite Hinv in Hh by reflexivity. discriminate.
  - cbn [falsy]. eexists. split; [reflexivity|]. cbn. rewrite Hh.
    split; [reflexivity|]. destruct m; cbn; repeat split; try discriminate.
    all: try (intros [? ?]; discriminate). all: intros ?; discriminate.
Qed.

Lemma view_follows_mode_witness :
  exists v,
    render false server epochState = Main v /\
    shown v = timestamp epochState /\
    (server = server <->
       indicator v = staticIndicator /\ label v = "Server Rendered"%string) /\
    (server = client <->
       indicator v = liveIndicator /\ label v = "Client Rendered"%string) /\
    staticIndicator <> liveIndicator.
Proof.
  apply (view_follows_mode false server epochState).
  - reflexivity.
  - split; intros H; discriminate H.
Defined.

(** C8: a run of the interval callback replaces the timestamp by the
    current time and leaves [isHydrated], and everything else about the
    component, as it was. *)
Theorem callback_replaces_timestamp_only :
  (forall t prev,
     applyAction (intervalCallback t) prev
     = {| timestamp := toISOString t; isHydrated := isHydrated prev |})
  /\
  (forall w id w',
     reachable w -> step w (Timer id) = Some w' ->
     exists f f',
       fiber w = Some f /\ fiber w' = Some f' /\
       timestamp (timeData f') = toISOString (now w) /\
       isHydrated (timeData f') = isHydrated (timeData f) /\
       mode f' = mode f /\ cleanup f' = cleanup f /\
       pendingHydration f' = pendingHydration f /\
       pendingUpdate f' = pendingUpdate f /\
       hydrationRuns f' = hydrationRuns f).
Proof.
  split; [reflexivity|].
  intros w id w' HI%Inv_reachable Hs.
  step_cases HI Hs. eexists _, _. cbn. repeat split.
Qed.

Lemma callback_replaces_timestamp_only_witness :
  exists f f',
    fiber (after liveEvents) = Some f /\
    fiber (after (liveEvents ++ [Timer 0%nat])) = Some f' /\
    timestamp (timeData f') = toISOString (now (after liveEvents)) /\
    isHydrated (timeData f') = isHydrated (timeData f) /\
    mode f' = mode f /\ cleanup f' = cleanup f /\
    pendingHydration f' = pendingHydration f /\
    pendingUpdate f' = pendingUpdate f /\
    hydrationRuns f' = hydrationRuns f.
Proof.
  apply (proj2 callback_replaces_timestamp_only (after liveEvents) 0%nat
           (after (liveEvents ++ [Timer 0%nat]))).
  - apply reachable_after; vm_compute; eauto.
  - vm_compute; reflexivity.
Defined.

(** C9: whatever the mode, the mount renders the loading placeholder, and
    the state at that point has the empty timestamp and is not hydrated. *)
Theorem first_render_is_loading w m w' :
  step w (Mount m) = Some w' ->
  exists f,
    fiber w' = Some f /\
    timestamp (timeData f) = ""%string /\ isHydrated (timeData f) = false /\
    trace w' = Rendered LoadingDisplay :: trace w.
Proof.
  cbn. destruct (fiber w); [discriminate|]. intros [= <-].
  eexists. cbn. repeat split.
Qed.

Lemma first_render_is_loading_witness :
  exists f,
    fiber (after [Mount client]) = Some f /\
    timestamp (timeData f) = ""%string /\ isHydrated (timeData f) = false /\
    trace (after [Mount client])
    = Rendered LoadingDisplay :: trace (initWorld false 0).
Proof.
  apply (first_render_is_loading (initWorld false 0) client
           (after [Mount client])).
  vm_compute; reflexivity.
Defined.

(** C10: once [isHydrated] is true it stays true through every event
    short of teardown: timer callbacks, toggles either way, flushes of the
    effects, clock readings. *)
Theorem hydrated_never_reset w f evs w' :
  fiber w = Some f -> isHydrated (timeData f) = true ->
  forallb notUnmount evs = true -> run w evs = Some w' ->
  exists f', fiber w' = Some f' /\ isHydrated (timeData f') = true.
Proof.
  revert w f. induction evs as [|ev evs IH]; intros w f Hf Hh Hn Hr;
    cbn [run forallb] in *.
  - injection Hr as <-. eauto.
  - destruct (step w ev) as [w1|] eqn:Hs; [|discriminate].
    apply andb_true_iff in Hn as [Hn1 Hn2].
    destruct (hydrated_step _ _ _ _ Hf Hh Hn1 Hs) as (f1 & Hf1 & Hh1).
    exact (IH w1 f1 Hf1 Hh1 Hn2 Hr).
Qed.

Lemma hydrated_never_reset_witness :
  exists f',
    fiber (after (liveEvents
                    ++ [Timer 0%nat; CheckedChange false; Flush; Clock 7000;
                        CheckedChange true; Clock 9000; Timer 1%nat]))
    = Some f' /\
    isHydrated (timeData f') = true.
Proof.
  apply (hydrated_never_reset (after liveEvents) liveFiber
           [Timer 0%nat; CheckedChange false; Flush; Clock 7000;
            CheckedChange true; Clock 9000; Timer 1%nat]);
    vm_compute; reflexivity.
Defined.

(* ===================================================================== *)
(** ** Further properties: timers, the log, the screen, the page          *)
(* ===================================================================== *)

Lemma render_hydrated dev m t :
  render dev m {| timestamp := toISOString t; isHydrated := true |}
  = Main {| indicator := if RenderMode_eqb m client then liveIndicator
                         else staticIndicator;
            label := if RenderMode_eqb m client then "Client Rendered"
                     else "Server Rendered";
            shown := toISOString t;
            message := if RenderMode_eqb m client
                       then "Live updating with Suspense"
                       else "Static server render with Suspense";
            debug := if dev then Some "Yes"%string else None |}.
Proof.
  unfold render. cbn [timestamp isHydrated]. rewrite falsy_toISOString.
  now rewrite andb_true_r.
Qed.

Lemma length_append (a b : string) :
  String.length (a ++ b) = (String.length a + String.length b)%nat.
Proof.
  induction a as [|c a IH]; [reflexivity|].
  rewrite append_cons. cbn [String.length]. now rewrite IH.
Qed.

Lemma length_pad k n : String.length (pad k n) = k.
Proof.
  revert n. induction k as [|k IH]; intros n; [reflexivity|].
  cbn [pad]. rewrite length_append, IH. cbn. lia.
Qed.

Lemma length_toISOString t :
  String.length (toISOString t)
  = if (0 <=? YearFromTime t) && (YearFromTime t <=? 9999) then 24%nat
    else 27%nat.
Proof.
  unfold toISOString, yearString.
  destruct ((0 <=? YearFromTime t) && (YearFromTime t <=? 9999));
    repeat first [rewrite length_append | rewrite length_pad
                 | rewrite append_cons | rewrite append_nil
                 | progress cbn [String.length]];
    reflexivity.
Qed.

Lemma balanced_step w ev w' :
  Inv w -> balanced w -> step w ev = Some w' -> balanced w'.
Proof.
  intros HI HB Hs. unfold balanced, logged_count in *.
  step_cases HI Hs; cbn in *;
    rewrite ?map_size_empty, ?map_size_singleton in *; lia.
Qed.

Lemma balanced_reachable w : reachable w -> balanced w.
Proof.
  induction 1 as [dev t0 H|w ev w' Hr IH Hs].
  - repeat split.
  - eapply balanced_step; eauto using Inv_reachable.
Qed.

Lemma inSync_step w ev w' :
  Inv w -> inSync w -> step w ev = Some w' -> inSync w'.
Proof.
  intros HI HS Hs. unfold inSync in *.
  step_cases HI Hs; cbn in *; intros f Hf; try discriminate Hf;
    injection Hf as <-; cbn; try reflexivity.
  all: try (exact (HS _ eq_refl)).
Qed.

Lemma inSync_reachable w : reachable w -> inSync w.
Proof.
  induction 1 as [dev t0 H|w ev w' Hr IH Hs].
  - intros f Hf. discriminate Hf.
  - eapply inSync_step; eauto using Inv_reachable.
Qed.

Lemma coherent_hydrated dev m t v :
  validTime t = true ->
  render dev m {| timestamp := toISOString t; isHydrated := true |} = Main v ->
  coherent v.
Proof.
  intros Hv. rewrite render_hydrated. intros [= <-].
  split; [destruct dev; auto|]. split; [destruct m; cbn; auto|].
  cbn. now apply isISO8601_toISOString.
Qed.

Lemma coherent_step w ev w' :
  Inv w -> Forall coherent (mainViews (trace w)) -> step w ev = Some w' ->
  Forall coherent (mainViews (trace w')).
Proof.
  intros HI HF Hs.
  step_cases HI Hs; cbn [trace] in *; rewrite ?render_hydrated;
    cbn [mainViews render falsy timestamp];
    repeat (constructor;
            [eapply coherent_hydrated; [|apply render_hydrated]; assumption|]);
    exact HF.
Qed.

Lemma openInterval_step w ev w' :
  Inv w -> openInterval (trace w) = Some (heldInterval w) ->
  step w ev = Some w' ->
  openInterval (trace w') = Some (heldInterval w').
Proof.
  intros HI HO Hs. unfold heldInterval in *.
  step_cases HI Hs; cbn in *; rewrite ?HO; cbn; rewrite ?Nat.eqb_refl;
    reflexivity.
Qed.

Lemma noIntervalSet_step w ev w' :
  Inv w -> noIntervalSet w -> selectsClient ev = false ->
  step w ev = Some w' -> noIntervalSet w'.
Proof.
  intros HI [Hq Hn] Hc Hs. unfold noIntervalSet, logged_count in *.
  step_cases HI Hs; cbn in *; try discriminate; auto.
Qed.

Lemma noIntervalSet_run w evs w' :
  Inv w -> noIntervalSet w -> existsb selectsClient evs = false ->
  run w evs = Some w' -> noIntervalSet w'.
Proof.
  revert w. induction evs as [|ev evs IH]; intros w HI HN Hc Hr;
    cbn [run existsb] in *.
  - now injection Hr as <-.
  - destruct (step w ev) as [w1|] eqn:Hs; [|discriminate].
    apply orb_false_iff in Hc as [Hc1 Hc2].
    exact (IH w1 (Inv_step _ _ _ HI Hs)
             (noIntervalSet_step _ _ _ HI HN Hc1 Hs) Hc2 Hr).
Qed.

Lemma flush_idle w f :
  fiber w = Some f -> pendingHydration f = false -> pendingUpdate f = false ->
  flushPassiveEffects w = w.
Proof.
  destruct w as [t dev fo tm nt tr], f as [td m c ph pu n]. cbn.
  intros -> -> ->. reflexivity.
Qed.

Lemma PageInv_open dev t0 : validTime t0 = true -> PageInv (openPage dev t0).
Proof.
  intros Hv. split.
  - apply (reach_step (initWorld dev t0) (Mount initialRenderMode));
      [now apply reach_init | reflexivity].
  - eexists. split; reflexivity.
Qed.

Lemma PageInv_step p ev p' :
  PageInv p -> pageStep p ev = Some p' -> PageInv p'.
Proof.
  intros (Hr & f & Hf & Hm) Hp. unfold pageStep in Hp.
  destruct (step (host p) (hostEvent p ev)) as [w'|] eqn:Hs; [|discriminate].
  injection Hp as <-. split; [exact (reach_step _ _ _ Hr Hs)|].
  cbn [host renderMode]. apply Inv_reachable in Hr.
  destruct p as [m w]. cbn [host renderMode] in *.
  destruct ev as [| |id|t']; cbn [hostEvent renderMode] in Hs.
  1: destruct m; cbn [RenderMode_eqb negb] in *.
  all: step_cases Hr Hs; try discriminate Hf; injection Hf as <-;
    try discriminate Hm; try subst m; eexists; split; reflexivity.
Qed.

Lemma PageInv_reachable p : reachablePage p -> PageInv p.
Proof.
  induction 1 as [dev t0 Hv|p ev p' _ IH Hs].
  - now apply PageInv_open.
  - exact (PageInv_step _ _ _ IH Hs).
Qed.

(** A page run from the epoch that succeeds ends in a reachable page. *)
Lemma reachablePage_after evs :
  is_Some (pageRun (openPage false 0) evs) -> reachablePage (pageAfter evs).
Proof.
  intros [p Hr]. unfold pageAfter. rewrite Hr. cbn.
  assert (reachablePage (openPage false 0)) as R0
    by (apply page_open; reflexivity).
  revert Hr R0. generalize (openPage false 0) as p0.
  induction evs as [|ev evs IH]; intros p0 Hr R0; cbn [pageRun] in Hr.
  - now injection Hr as <-.
  - destruct (pageStep p0 ev) as [p1|] eqn:Hs; [|discriminate].
    exact (IH p1 Hr (page_step _ _ _ R0 Hs)).
Qed.

(** X1: the update effect never leaks a timer.  In every reachable state
    at most one interval timer is active; none is while the widget is
    unmounted or in server mode; and a hydrated component settled in
    client mode holds exactly the one that is active. *)
Theorem at_most_one_timer w :
  reachable w ->
  (size (timers w) <= 1)%nat /\
  (quiet w = true -> timers w = ∅) /\
  (forall f, fiber w = Some f -> isHydrated (timeData f) = true ->
     pendingUpdate f = false -> mode f = client ->
     exists id due, cleanup f = Some id /\ timers w = {[ id := due ]}).
Proof.
  intros HI%Inv_reachable.
  inv_cases HI; cbn; rewrite ?map_size_empty, ?map_size_singleton.
  all: split; [lia|]; split; [try discriminate; reflexivity|].
  all: intros f Hf; try discriminate Hf; injection Hf as <-; cbn;
    try discriminate; eauto.
Qed.

Lemma at_most_one_timer_witness :
  reachable (after liveEvents) /\ (size (timers (after liveEvents)) <= 1)%nat.
Proof.
  assert (reachable (after liveEvents)) as R
    by (apply reachable_after; vm_compute; eauto).
  split; [exact R|]. exact (proj1 (at_most_one_timer (after liveEvents) R)).
Defined.

(** X2: the calls to [setInterval] and [clearInterval] in the log
    alternate, oldest first, each [clearInterval] clearing the interval
    set just before it; the interval left open at the end is the one the
    component's cleanup holds, and it is the active timer. *)
Theorem intervals_paired w :
  reachable w ->
  openInterval (trace w) = Some (heldInterval w) /\
  (forall id, heldInterval w = Some id <-> is_Some (timers w !! id)).
Proof.
  intros Hr. split.
  - induction Hr as [dev t0 H|w ev w' Hr IH Hs]; [reflexivity|].
    eapply openInterval_step; eauto using Inv_reachable.
  - apply Inv_reachable in Hr. unfold heldInterval.
    inv_cases Hr; cbn; intros id0; split.
    all: try (intros H; discriminate H).
    all: try (intros [x Hx]; now rewrite lookup_empty in Hx).
    + intros [= <-]. rewrite lookup_singleton_eq. eauto.
    + intros [x Hx]. apply lookup_singleton_Some in Hx as [<- _].
      reflexivity.
Qed.

Lemma intervals_paired_witness :
  reachable (after (liveEvents ++ [CheckedChange false; CheckedChange true]))
  /\ openInterval
       (trace (after (liveEvents ++ [CheckedChange false; CheckedChange true])))
     = Some (Some 1%nat).
Proof.
  assert (reachable
            (after (liveEvents ++ [CheckedChange false; CheckedChange true])))
    as R by (apply reachable_after; vm_compute; eauto).
  split; [exact R|]. exact (proj1 (intervals_paired _ R)).
Defined.

(** X3: the log holds as many [setInterval] calls as [clearInterval]
    calls and active timers together, so that once the widget is
    unmounted every interval it set has been cleared; and it holds one
    "Setting up" message per [setInterval] and one "Cleaning up" message
    per [clearInterval]. *)
Theorem intervals_set_and_cleared w :
  reachable w ->
  logged_count isSetInterval (trace w)
  = (logged_count isClearInterval (trace w) + size (timers w))%nat /\
  (fiber w = None ->
   logged_count isSetInterval (trace w)
   = logged_count isClearInterval (trace w)) /\
  logged_count (isConsole settingUp) (trace w)
  = logged_count isSetInterval (trace w) /\
  logged_count (isConsole cleaningUp) (trace w)
  = logged_count isClearInterval (trace w).
Proof.
  intros Hr. destruct (balanced_reachable w Hr) as (H1 & H2 & H3).
  split; [exact H1|]. split; [|split; assumption].
  intros Hf. apply Inv_reachable in Hr.
  inv_cases Hr; try discriminate Hf. cbn in *.
  rewrite map_size_empty in H1. lia.
Qed.

Lemma intervals_set_and_cleared_witness :
  reachable (after (liveEvents ++ [Unmount])) /\
  fiber (after (liveEvents ++ [Unmount])) = None /\
  logged_count isSetInterval (trace (after (liveEvents ++ [Unmount])))
  = logged_count isClearInterval (trace (after (liveEvents ++ [Unmount]))).
Proof.
  assert (reachable (after (liveEvents ++ [Unmount]))) as R
    by (apply reachable_after; vm_compute; eauto).
  split; [exact R|]. split; [vm_compute; reflexivity|].
  apply (proj1 (proj2 (intervals_set_and_cleared _ R))).
  vm_compute; reflexivity.
Defined.

(** X4: the screen is never stale.  While the widget is mounted, the
    newest render in the log is the render of the component's current
    mode and state, and it is the loading placeholder exactly while the
    component is not hydrated. *)
Theorem screen_in_sync w f :
  reachable w -> fiber w = Some f ->
  screen (trace w) = Some (render (development w) (mode f) (timeData f)) /\
  (screen (trace w) = Some LoadingDisplay <-> isHydrated (timeData f) = false).
Proof.
  intros Hr Hf.
  pose proof (inSync_reachable w Hr f Hf) as HS.
  split; [exact HS|]. rewrite HS.
  apply Inv_reachable in Hr.
  inv_cases Hr; cbn in Hf; try discriminate Hf; injection Hf as <-; cbn.
  1: split; reflexivity.
  all: rewrite render_hydrated; split; intros H; discriminate H.
Qed.

Lemma screen_in_sync_witness :
  reachable (after liveEvents) /\
  fiber (after liveEvents) = Some liveFiber /\
  screen (trace (after liveEvents))
  = Some (render (development (after liveEvents)) (mode liveFiber)
            (timeData liveFiber)).
Proof.
  assert (reachable (after liveEvents)) as R
    by (apply reachable_after; vm_compute; eauto).
  assert (fiber (after liveEvents) = Some liveFiber) as F
    by (vm_compute; reflexivity).
  split; [exact R|]. split; [exact F|].
  exact (proj1 (screen_in_sync (after liveEvents) liveFiber R F)).
Defined.

(** X5: no main view the widget ever rendered shows "Hydrated: No" in its
    debug line, and in every one of them the indicator is the live one
    exactly when the label says "Client Rendered" (the [isHydrated]
    conjunct of the indicator's test never decides), and the timestamp is
    a date-time string. *)
Theorem rendered_views_coherent w v :
  reachable w -> In v (mainViews (trace w)) ->
  debug v <> Some "No"%string /\
  (indicator v = liveIndicator <-> label v = "Client Rendered"%string) /\
  isISO8601 (shown v) = true.
Proof.
  intros Hr Hin.
  assert (Forall coherent (mainViews (trace w))) as HF.
  { clear v Hin. induction Hr as [dev t0 H|w ev w' Hr IH Hs].
    - constructor.
    - eapply coherent_step; eauto using Inv_reachable. }
  rewrite List.Forall_forall in HF. destruct (HF v Hin) as (Hd & Hl & Hi).
  split; [destruct Hd as [-> | ->]; discriminate|]. split; [|exact Hi].
  destruct Hl as [[-> ->]|[-> ->]]; split; intros H; try reflexivity;
    discriminate H.
Qed.

Lemma rendered_views_coherent_witness :
  reachable (after liveEvents) /\
  In {| indicator := liveIndicator; label := "Client Rendered";
        shown := "1970-01-01T00:00:00.000Z";
        message := "Live updating with Suspense"; debug := None |}
     (mainViews (trace (after liveEvents))) /\
  isISO8601 "1970-01-01T00:00:00.000Z" = true.
Proof.
  assert (reachable (after liveEvents)) as R
    by (apply reachable_after; vm_compute; eauto).
  assert (In {| indicator := liveIndicator; label := "Client Rendered";
                shown := "1970-01-01T00:00:00.000Z";
                message := "Live updating with Suspense"; debug := None |}
             (mainViews (trace (after liveEvents)))) as HIn
    by (vm_compute; left; reflexivity).
  split; [exact R|]. split; [exact HIn|].
  exact (proj2 (proj2 (rendered_views_coherent _ _ R HIn))).
Defined.

(** X6: a flip of the Switch never alters the timestamp of a hydrated
    widget.  Switching to client mode arms a new timer that is first due
    a full interval later, so the display is not refreshed at the switch;
    switching to server mode leaves no timer. *)
Theorem toggle_keeps_timestamp w f checked w' :
  reachable w -> fiber w = Some f -> isHydrated (timeData f) = true ->
  step w (CheckedChange checked) = Some w' ->
  exists f',
    fiber w' = Some f' /\ timeData f' = timeData f /\
    mode f' = onCheckedChange checked /\
    (checked = true -> mode f = server ->
     timers w' = {[ nextTimer w := now w + 1000 ]} /\
     cleanup f' = Some (nextTimer w)) /\
    (checked = false -> timers w' = ∅ /\ cleanup f' = None).
Proof.
  intros HI%Inv_reachable Hf Hh Hs.
  destruct checked; step_cases HI Hs; cbn in Hf; injection Hf as <-;
    cbn in Hh; try discriminate Hh.
  all: eexists; split; [reflexivity|]; cbn; repeat split;
    try reflexivity; try discriminate.
Qed.

Lemma toggle_keeps_timestamp_witness :
  exists f',
    fiber (after (staticEvents ++ [CheckedChange true])) = Some f' /\
    timeData f' = timeData staticFiber /\
    mode f' = onCheckedChange true /\
    (true = true -> mode staticFiber = server ->
     timers (after (staticEvents ++ [CheckedChange true]))
     = {[ nextTimer (after staticEvents) := now (after staticEvents) + 1000 ]}
     /\ cleanup f' = Some (nextTimer (after staticEvents))) /\
    (true = false ->
     timers (after (staticEvents ++ [CheckedChange true])) = ∅ /\
     cleanup f' = None).
Proof.
  apply (toggle_keeps_timestamp (after staticEvents) staticFiber true
           (after (staticEvents ++ [CheckedChange true]))).
  - apply reachable_after; vm_compute; eauto.
  - vm_compute; reflexivity.
  - reflexivity.
  - vm_compute; reflexivity.
Defined.

(** X8: as long as nothing selects client mode (the page's default is
    server mode), the widget never calls [setInterval]: the log holds no
    such call, no timer is active, and the run holds no timer callback. *)
Theorem server_mode_sets_no_interval dev t0 evs w :
  validTime t0 = true -> existsb selectsClient evs = false ->
  run (initWorld dev t0) evs = Some w ->
  logged_count isSetInterval (trace w) = 0%nat /\ timers w = ∅ /\
  existsb isTimer evs = false.
Proof.
  intros Hv Hc Hr.
  assert (Inv (initWorld dev t0)) as HI0 by now constructor.
  assert (noIntervalSet (initWorld dev t0)) as HN0 by (split; reflexivity).
  destruct (noIntervalSet_run _ _ _ HI0 HN0 Hc Hr) as [Hq H0].
  split; [exact H0|]. split.
  - assert (reachable w) as R
      by (eapply reachable_run; [|exact Hr]; now constructor).
    pose proof (balanced_reachable w R) as (HB & _).
    rewrite H0 in HB. apply map_size_empty_inv. lia.
  - exact (quiet_run _ _ _ HI0 (proj1 HN0) Hc Hr).
Qed.

Lemma server_mode_sets_no_interval_witness :
  logged_count isSetInterval (trace (after staticEvents)) = 0%nat /\
  timers (after staticEvents) = ∅ /\
  existsb isTimer staticEvents = false.
Proof.
  apply (server_mode_sets_no_interval false 0 staticEvents
           (after staticEvents)); vm_compute; reflexivity.
Defined.

(** X9: the effects do not feed each other.  Whatever the state, after
    two rounds of passive effects a further round changes nothing: the
    state update of the hydration effect re-runs the update effect once
    and then the component is at rest. *)
Theorem effects_settle w : flushPassiveEffects (settle w) = settle w.
Proof.
  destruct (fiber (settle w)) as [f|] eqn:Hf.
  - destruct (settle_settled w f Hf) as [Hh Hu].
    exact (flush_idle _ _ Hf Hh Hu).
  - unfold flushPassiveEffects at 1. now rewrite Hf.
Qed.

(** X10: a run of the interval callback renders once and runs no effect:
    the log grows by exactly one main view, showing the current time, and
    the interval is neither cleared nor set anew. *)
Theorem tick_renders_once w id w' :
  reachable w -> step w (Timer id) = Some w' ->
  exists v,
    trace w' = Rendered (Main v) :: trace w /\
    shown v = toISOString (now w) /\
    heldInterval w' = heldInterval w /\ nextTimer w' = nextTimer w.
Proof.
  intros HI%Inv_reachable Hs. step_cases HI Hs.
  rewrite render_hydrated. eexists. repeat split.
Qed.

Lemma tick_renders_once_witness :
  exists v,
    trace (after (liveEvents ++ [Timer 0%nat]))
    = Rendered (Main v) :: trace (after liveEvents) /\
    shown v = toISOString (now (after liveEvents)) /\
    heldInterval (after (liveEvents ++ [Timer 0%nat]))
    = heldInterval (after liveEvents) /\
    nextTimer (after (liveEvents ++ [Timer 0%nat]))
    = nextTimer (after liveEvents).
Proof.
  apply (tick_renders_once (after liveEvents) 0%nat
           (after (liveEvents ++ [Timer 0%nat]))).
  - apply reachable_after; vm_compute; eauto.
  - vm_compute; reflexivity.
Defined.

(** X11: the timestamp on screen is always the canonical text of a valid
    instant: it reads back as a time value whose [toISOString] is the
    same text, and it is 24 characters long, or 27 with a signed
    six-digit year. *)
Theorem shown_timestamp_canonical w s :
  reachable w -> shownStamp w = Some s ->
  exists t,
    validTime t = true /\ parse s = Some t /\ toISOString t = s /\
    (String.length s = 24%nat \/ String.length s = 27%nat).
Proof.
  intros HI%Inv_reachable Hs.
  inv_cases HI; cbn in Hs; try discriminate Hs; injection Hs as <-.
  all: exists t1; split; [assumption|]; split;
    [now apply parse_toISOString|]; split; [reflexivity|];
    rewrite length_toISOString;
    destruct ((0 <=? YearFromTime t1) && (YearFromTime t1 <=? 9999)); auto.
Qed.

Lemma shown_timestamp_canonical_witness :
  exists t,
    validTime t = true /\
    parse "1970-01-01T00:00:00.000Z" = Some t /\
    toISOString t = "1970-01-01T00:00:00.000Z"%string /\
    (String.length "1970-01-01T00:00:00.000Z" = 24%nat \/
     String.length "1970-01-01T00:00:00.000Z" = 27%nat).
Proof.
  apply (shown_timestamp_canonical (after liveEvents)
           "1970-01-01T00:00:00.000Z").
  - apply reachable_after; vm_compute; eauto.
  - vm_compute; reflexivity.
Defined.

(** X12: on the page, [TimeDisplay] is always mounted, under the page's
    current [renderMode], and what it shows is its render for that mode.
    Once it shows the main view, all mode-dependent parts of the page
    agree: the Switch is on exactly when the label says "Client Rendered",
    when the indicator is the live one, when the mode line says
    "Client-side" and when the implementation tab explains the client
    process. *)
Theorem page_parts_agree p :
  reachablePage p ->
  exists f,
    fiber (host p) = Some f /\ mode f = renderMode p /\
    pageView p
    = Some (SuspensePreview_render (renderMode p)
              (render (development (host p)) (renderMode p) (timeData f))) /\
    forall pv v,
      pageView p = Some pv -> timeDisplay pv = Main v ->
      (switchChecked pv = true <-> label v = "Client Rendered"%string) /\
      (switchChecked pv = true <-> indicator v = liveIndicator) /\
      (switchChecked pv = true
       <-> renderModeLine pv = "Render Mode: Client-side"%string) /\
      (switchChecked pv = true
       <-> howItWorks pv = "Client-Side Rendering Process"%string).
Proof.
  intros (Hr & f & Hf & Hm)%PageInv_reachable.
  exists f. split; [exact Hf|]. split; [exact Hm|].
  pose proof (inSync_reachable _ Hr f Hf) as Hs.
  assert (pageView p
          = Some (SuspensePreview_render (renderMode p)
                    (render (development (host p)) (renderMode p)
                       (timeData f)))) as Hv
    by (unfold pageView; now rewrite Hs, Hm).
  split; [exact Hv|]. intros pv v Hpv Hd. rewrite Hv in Hpv.
  injection Hpv as <-. cbn [timeDisplay SuspensePreview_render] in Hd.
  apply Inv_reachable in Hr.
  inv_cases Hr; cbn in Hf; try discriminate Hf; injection Hf as <-;
    cbn [timeData] in Hd; try discriminate Hd.
  all: rewrite render_hydrated in Hd; injection Hd as <-.
  all: destruct (renderMode p); cbn; repeat split; intros H;
    try reflexivity; discriminate H.
Qed.

Lemma page_parts_agree_witness :
  exists f,
    fiber (host (pageAfter livePageEvents)) = Some f /\
    mode f = renderMode (pageAfter livePageEvents) /\
    pageView (pageAfter livePageEvents)
    = Some (SuspensePreview_render (renderMode (pageAfter livePageEvents))
              (render (development (host (pageAfter livePageEvents)))
                 (renderMode (pageAfter livePageEvents)) (timeData f))).
Proof.
  assert (reachablePage (pageAfter livePageEvents)) as R
    by (apply reachablePage_after; vm_compute; eauto).
  destruct (page_parts_agree (pageAfter livePageEvents) R)
    as (f & Hf & Hm & Hv & _).
  exists f. split; [exact Hf|]. split; [exact Hm | exact Hv].
Defined.

(** X13: on the page the Switch always works: a click is possible in
    every reachable state and changes [renderMode]; a second click
    restores it, and a hydrated widget shows the same timestamp after the
    two clicks as before them. *)
Theorem click_flips_and_returns p :
  reachablePage p ->
  exists p',
    pageStep p Click = Some p' /\ renderMode p' <> renderMode p /\
    exists p'',
      pageStep p' Click = Some p'' /\ renderMode p'' = renderMode p /\
      forall f,
        fiber (host p) = Some f -> isHydrated (timeData f) = true ->
        exists f'', fiber (host p'') = Some f'' /\ timeData f'' = timeData f.
Proof.
  intros (Hr & f & Hf & Hm)%PageInv_reachable. apply Inv_reachable in Hr.
  destruct p as [m w]; cbn [host renderMode] in *.
  inv_cases Hr; cbn in Hf; try discriminate Hf; injection Hf as <-;
    cbn in Hm; subst m;
    try match goal with m : RenderMode |- _ => destruct m end.
  all: page_click; (split; [discriminate|]); page_click;
    (split; [reflexivity|]); intros f0 [= <-] Hh; try discriminate Hh;
    eexists; split; reflexivity.
Qed.

Lemma click_flips_and_returns_witness :
  exists p',
    pageStep (pageAfter livePageEvents) Click = Some p' /\
    renderMode p' <> renderMode (pageAfter livePageEvents).
Proof.
  assert (reachablePage (pageAfter livePageEvents)) as R
    by (apply reachablePage_after; vm_compute; eauto).
  destruct (click_flips_and_returns (pageAfter livePageEvents) R)
    as (p' & Hs & Hne & _).
  exists p'. split; [exact Hs | exact Hne].
Defined.
